(** * The browser-extension bundler configuration ([web/extension/webpack.config.js])

    The file exports one function, [(env, argv) => { ... }], which picks a
    build mode, prints it, and returns the bundler configuration object.
    This development embeds that function together with the fragments of the
    JavaScript runtime it leans on (truthiness, property reads, the string
    conversion done by a template literal, [console.log]) and Node's POSIX
    [path.resolve], and proves the properties stated about it. *)

From Stdlib Require Import String Ascii List Bool ZArith Lia DecimalString.
Import ListNotations.
Local Open Scope string_scope.

(** ** JavaScript values *)

(** Number values are IEEE-754 doubles.  The configuration function looks at
    a Number only through its truthiness and its string form, both given by
    the host, so the Number type is kept abstract behind this interface. *)
Class NumberOps (Number : Type) : Type := {
  NumberToBoolean : Number -> bool;
  NumberToString : Number -> string
}.

(** The integer Numbers, printed in decimal the way [Number::toString] prints
    an integer of magnitude below 10^21; zero is the falsy one. *)
#[export] Instance IntegerNumber : NumberOps Z := {
  NumberToBoolean z := negb (Z.eqb z 0);
  NumberToString z := NilZero.string_of_int (Z.to_int z)
}.

(** Primitives, and ordinary objects given by their own data properties in
    insertion order (prototype [Object.prototype]).  Functions, arrays,
    BigInts, accessors and proxies are not represented. *)
#[warnings="-register-all"]
Inductive JsValue (Number : Type) : Type :=
| JsUndefined
| JsNull
| JsBoolean (b : bool)
| JsNumber (n : Number)
| JsString (s : string)
| JsSymbol (description : string)
| JsObject (props : list (string * JsValue Number)).

Arguments JsUndefined {Number}.
Arguments JsNull {Number}.
Arguments JsBoolean {Number} b.
Arguments JsNumber {Number} n.
Arguments JsString {Number} s.
Arguments JsSymbol {Number} description.
Arguments JsObject {Number} props.

Inductive JsError : Type :=
| TypeError (message : string).

(** How an evaluation ends: with a value, or abruptly with a thrown error. *)
Inductive Completion (A : Type) : Type :=
| Normal (a : A)
| Throw (e : JsError).

Arguments Normal {A} a.
Arguments Throw {A} e.

Definition isEmpty (s : string) : bool :=
  match s with
  | EmptyString => true
  | String _ _ => false
  end.

Fixpoint lookup {A : Type} (key : string) (props : list (string * A)) : option A :=
  match props with
  | [] => None
  | (k, v) :: rest => if String.eqb k key then Some v else lookup key rest
  end.

Definition hasOwnProperty {A : Type} (key : string) (props : list (string * A)) : bool :=
  match lookup key props with
  | Some _ => true
  | None => false
  end.

Section Runtime.
Context {Number : Type} `{NumberOps Number}.

(** The truthiness test of [if (...)] and [&&]. *)
Definition ToBoolean (v : JsValue Number) : bool :=
  match v with
  | JsUndefined | JsNull => false
  | JsBoolean b => b
  | JsNumber n => NumberToBoolean n
  | JsString s => negb (isEmpty s)
  | JsSymbol _ | JsObject _ => true
  end.

(** The member read [v.key].  [undefined] and [null] have no properties and
    the read throws; a primitive is read through its wrapper prototype,
    which defines none of the keys used here; an object yields its own
    property, or [undefined]. *)
Definition GetV (v : JsValue Number) (key : string) : Completion (JsValue Number) :=
  match v with
  | JsUndefined =>
      Throw (TypeError ("Cannot read properties of undefined (reading '" ++ key ++ "')"))
  | JsNull =>
      Throw (TypeError ("Cannot read properties of null (reading '" ++ key ++ "')"))
  | JsObject props =>
      match lookup key props with
      | Some x => Normal x
      | None => Normal JsUndefined
      end
  | _ => Normal JsUndefined
  end.

(** The string conversion applied to a template-literal substitution.
    A Symbol does not convert.  An object goes through [toString] then
    [valueOf]: the inherited [Object.prototype.toString] answers
    ["[object Object]"]; an own [toString] data property shadows it with a
    value that is not callable, and the inherited [valueOf] returns the
    object itself, so no primitive is found. *)
Definition ToString (v : JsValue Number) : Completion string :=
  match v with
  | JsUndefined => Normal "undefined"
  | JsNull => Normal "null"
  | JsBoolean true => Normal "true"
  | JsBoolean false => Normal "false"
  | JsNumber n => Normal (NumberToString n)
  | JsString s => Normal s
  | JsSymbol _ => Throw (TypeError "Cannot convert a Symbol value to a string")
  | JsObject props =>
      if hasOwnProperty "toString" props
      then Throw (TypeError "Cannot convert object to primitive value")
      else Normal "[object Object]"
  end.

End Runtime.

(** ** The process: working directory and console *)

Record Process : Type := {
  cwd : string;
  stdout : list string
}.

(** A computation runs in a process, may write to it, and completes normally
    or abruptly. *)
Definition Js (A : Type) : Type := Process -> Completion A * Process.

Definition ret {A : Type} (a : A) : Js A :=
  fun p => (Normal a, p).

Definition bind {A B : Type} (m : Js A) (k : A -> Js B) : Js B :=
  fun p =>
    match m p with
    | (Normal a, p') => k a p'
    | (Throw e, p') => (Throw e, p')
    end.

Definition lift {A : Type} (c : Completion A) : Js A :=
  fun p => (c, p).

(** [console.log(line)] with a single string argument: one line on stdout. *)
Definition console_log (line : string) : Js unit :=
  fun p => (Normal tt, {| cwd := cwd p; stdout := stdout p ++ [line] |}).

Declare Scope js_scope.
Delimit Scope js_scope with js.
Notation "x <- m ;; k" := (bind m (fun x => k))
  (at level 61, m at next level, right associativity) : js_scope.
Notation "m ;; k" := (bind m (fun _ => k))
  (at level 61, right associativity) : js_scope.

(** ** Node's [path] module, POSIX flavour

    [path.resolve] belongs to the Node runtime.  It is modelled here after
    [path.posix.resolve]: the arguments are prepended from right to left
    until an absolute one is met, the working directory coming last, and the
    result is normalised.  Normalisation is written per segment where Node
    scans characters. *)

Module Path.

Definition slash : ascii := "/"%char.

Definition isAbsolute (p : string) : bool :=
  match p with
  | String c _ => Ascii.eqb c slash
  | EmptyString => false
  end.

(** [p.split("/")]: the segments between separators, empty ones included. *)
Fixpoint split (p : string) : list string :=
  match p with
  | EmptyString => [EmptyString]
  | String c rest =>
      if Ascii.eqb c slash then EmptyString :: split rest
      else match split rest with
           | [] => [String c EmptyString]
           | seg :: segs => String c seg :: segs
           end
  end.

(** One segment of [normalizeString], on the stack of kept segments (last
    one first): empty and ["."] segments vanish, [".."] drops the last kept
    segment, or is kept itself when nothing is left to drop and the path may
    climb above its root. *)
Definition normalizeSegment (allowAboveRoot : bool) (kept : list string) (seg : string)
  : list string :=
  if String.eqb seg "" || String.eqb seg "." then kept
  else if String.eqb seg ".." then
    match kept with
    | [] => if allowAboveRoot then [".."] else []
    | last :: before =>
        if String.eqb last ".." then (if allowAboveRoot then ".." :: kept else kept)
        else before
    end
  else seg :: kept.

(** A segment that normalisation keeps as it is. *)
Definition ordinary (seg : string) : bool :=
  negb (String.eqb seg "" || String.eqb seg "." || String.eqb seg "..").

Definition normalizeString (p : string) (allowAboveRoot : bool) : string :=
  String.concat "/" (rev (fold_left (normalizeSegment allowAboveRoot) (split p) [])).

(** The right-to-left loop of [resolve]: prepend arguments, skipping empty
    ones, until one of them is absolute. *)
Fixpoint prepend (paths : list string) (resolvedPath : string) : string * bool :=
  match paths with
  | [] => (resolvedPath, false)
  | p :: rest =>
      if isEmpty p then prepend rest resolvedPath
      else
        let resolvedPath' := p ++ "/" ++ resolvedPath in
        if isAbsolute p then (resolvedPath', true) else prepend rest resolvedPath'
  end.

(** [path.resolve(...paths)] in a process whose working directory is [cwd];
    the working directory is consulted last, after every argument. *)
Definition resolve (cwd : string) (paths : list string) : string :=
  let (resolvedPath, resolvedAbsolute) := prepend (rev paths ++ [cwd]) "" in
  let normalized := normalizeString resolvedPath (negb resolvedAbsolute) in
  if resolvedAbsolute then "/" ++ normalized
  else if isEmpty normalized then "." else normalized.

End Path.

Definition path_resolve (paths : list string) : Js string :=
  fun p => (Normal (Path.resolve (cwd p) paths), p).

(** [s.endsWith(suffix)]. *)
Definition endsWith (s suffix : string) : bool :=
  let n := String.length s in
  let m := String.length suffix in
  (m <=? n)%nat && String.eqb (substring (n - m) m s) suffix.

(** ** The configuration object *)

Section Config.
Context {Number : Type} `{NumberOps Number}.

Record Output : Type := {
  path : string;
  filename : string;
  chunkFilename : string;
  jsonpFunction : string
}.

Record WasmPackOptions : Type := {
  crateDirectory : string;
  outName : string;
  forceMode : JsValue Number
}.

(** A plugin activation: which constructor was called with [new], and with
    which options. *)
Inductive Plugin : Type :=
| CleanWebpackPlugin
| WasmPackPlugin (options : WasmPackOptions).

Record Configuration : Type := {
  entry : list (string * string);
  output : Output;
  mode : JsValue Number;
  plugins : list Plugin
}.

(** The directory of the configuration file, bound by Node when it loads
    the module. *)
Variable __dirname : string.

Local Open Scope js_scope.

(** The mode chosen by lines 8-11: ["production"], unless [argv] is truthy
    and [argv.mode] is truthy. *)
Definition select_mode (argv : JsValue Number) : Js (JsValue Number) :=
  let mode := JsString "production" in
  test <- (if ToBoolean argv then lift (GetV argv "mode") else ret argv) ;;
  if ToBoolean test then lift (GetV argv "mode") else ret mode.

(** The exported function. *)
Definition module_exports (env argv : JsValue Number) : Js Configuration :=
  mode <- select_mode argv ;;
  modeText <- lift (ToString mode) ;;
  console_log ("Building " ++ modeText ++ "...") ;;
  ruffle <- path_resolve [__dirname; "js/index.js"] ;;
  popup <- path_resolve [__dirname; "js/popup.js"] ;;
  dist <- path_resolve [__dirname; "build/dist"] ;;
  crate <- path_resolve [__dirname; ".."] ;;
  ret {| entry := [("ruffle", ruffle); ("popup", popup)];
         output := {| path := dist;
                      filename := "[name].js";
                      chunkFilename := "core.ruffle.js";
                      jsonpFunction := "RufflePlayerExtensionLoader" |};
         mode := mode;
         plugins := [CleanWebpackPlugin;
                     WasmPackPlugin {| crateDirectory := crate;
                                       outName := "ruffle";
                                       forceMode := mode |}] |}.

End Config.

(** The configuration the function builds once the mode and the working
    directory are known. *)
Definition configuration_for {Number : Type} (__dirname workdir : string)
    (mode : JsValue Number) : Configuration :=
  {| entry := [("ruffle", Path.resolve workdir [__dirname; "js/index.js"]);
               ("popup", Path.resolve workdir [__dirname; "js/popup.js"])];
     output := {| path := Path.resolve workdir [__dirname; "build/dist"];
                  filename := "[name].js";
                  chunkFilename := "core.ruffle.js";
                  jsonpFunction := "RufflePlayerExtensionLoader" |};
     mode := mode;
     plugins := [CleanWebpackPlugin;
                 WasmPackPlugin {| crateDirectory := Path.resolve workdir [__dirname; ".."];
                                   outName := "ruffle";
                                   forceMode := mode |}] |}.

(** The value [select_mode] computes, as a plain function of [argv]. *)
Definition selected_mode {Number : Type} `{NumberOps Number} (argv : JsValue Number)
  : JsValue Number :=
  match argv with
  | JsObject props =>
      match lookup "mode" props with
      | Some requested => if ToBoolean requested then requested else JsString "production"
      | None => JsString "production"
      end
  | _ => JsString "production"
  end.

(** Whether the template literal can print the value. *)
Definition hasStringForm {Number : Type} `{NumberOps Number} (v : JsValue Number) : bool :=
  match ToString v with
  | Normal _ => true
  | Throw _ => false
  end.

(** ** Sample inputs, with integer Numbers *)

Definition extension_dir : string := "/home/user/ruffle/web/extension".

Definition fresh_process : Process :=
  {| cwd := "/home/user/ruffle"; stdout := [] |}.

Definition busy_process : Process :=
  {| cwd := "/tmp"; stdout := ["npm run build"] |}.

Definition development_argv : JsValue Z :=
  JsObject [("mode", JsString "development")].

Definition symbol_argv : JsValue Z :=
  JsObject [("mode", JsSymbol "development")].

Definition development_configuration : Configuration :=
  {| entry := [("ruffle", "/home/user/ruffle/web/extension/js/index.js");
               ("popup", "/home/user/ruffle/web/extension/js/popup.js")];
     output := {| path := "/home/user/ruffle/web/extension/build/dist";
                  filename := "[name].js";
                  chunkFilename := "core.ruffle.js";
                  jsonpFunction := "RufflePlayerExtensionLoader" |};
     mode := JsString "development";
     plugins := [CleanWebpackPlugin;
                 WasmPackPlugin {| crateDirectory := "/home/user/ruffle/web";
                                   outName := "ruffle";
                                   forceMode := JsString (Number:=Z) "development" |}] |}.

Definition after_development (p : Process) : Process :=
  {| cwd := cwd p; stdout := stdout p ++ ["Building development..."] |}.

(** ** Vocabulary for the properties *)


(** The segments of an absolute path once normalised, first one first. *)
Definition segments (p : string) : list string :=
  rev (fold_left (Path.normalizeSegment false) (Path.split p) []).

(** The directory made of these segments, as a prefix to which a separator
    and a relative path are appended; the root is the empty prefix. *)
Definition directory_prefix (segs : list string) : string :=
  match segs with
  | [] => ""
  | _ :: _ => "/" ++ String.concat "/" segs
  end.

(** A path in normal form: a leading separator, then ordinary segments
    only. *)
Definition normalised (p : string) : bool :=
  match Path.split p with
  | first :: segs => isEmpty first && forallb Path.ordinary segs
  | [] => false
  end.

Definition numeric_argv : JsValue Z :=
  JsObject [("mode", JsNumber 5%Z)].


Definition verbose_argv : JsValue Z :=
  JsObject [("watch", JsBoolean true); ("mode", JsString "development");
            ("devtool", JsString "source-map")].

Definition dotted_dir : string := "/home/user/./ruffle//web/core/../extension/".

(** ** Strings *)

Lemma append_assoc (a b c : string) : (a ++ b) ++ c = a ++ (b ++ c).
Proof.
  induction a as [|ch a IH]; simpl; [reflexivity | now rewrite IH].
Qed.

Lemma length_append (a b : string) :
  String.length (a ++ b) = String.length a + String.length b.
Proof.
  induction a as [|ch a IH]; simpl; [reflexivity | now rewrite IH].
Qed.

Lemma substring_all (s : string) : substring 0 (String.length s) s = s.
Proof.
  induction s as [|ch s IH]; simpl; [reflexivity | now rewrite IH].
Qed.

Lemma substring_skip_append (a b : string) (m : nat) :
  substring (String.length a) m (a ++ b) = substring 0 m b.
Proof.
  induction a as [|ch a IH]; simpl; [reflexivity | exact IH].
Qed.

Lemma endsWith_append (before suffix : string) :
  endsWith (before ++ suffix) suffix = true.
Proof.
  unfold endsWith.
  rewrite length_append.
  replace (String.length before + String.length suffix - String.length suffix)
    with (String.length before) by lia.
  rewrite substring_skip_append, substring_all, String.eqb_refl.
  rewrite andb_true_r.
  apply Nat.leb_le. lia.
Qed.

(** ** Path resolution *)

Module PathFacts.
Import Path.

Lemma split_nonempty (p : string) : split p <> [].
Proof.
  destruct p as [|c rest]; simpl; [discriminate|].
  destruct (Ascii.eqb c slash); [discriminate|].
  destruct (split rest); discriminate.
Qed.

(** Splitting distributes over a separator. *)
Lemma split_append_slash (a b : string) :
  split (a ++ String slash b) = (split a ++ split b)%list.
Proof.
  induction a as [|c a IH]; simpl.
  - reflexivity.
  - destruct (Ascii.eqb c slash).
    + now rewrite IH.
    + rewrite IH.
      destruct (split a) as [|seg segs] eqn:E; [now apply split_nonempty in E|].
      reflexivity.
Qed.

(** Joining the segments gives the path back. *)
Lemma concat_split (p : string) : String.concat "/" (split p) = p.
Proof.
  induction p as [|c rest IH]; simpl; [reflexivity|].
  destruct (Ascii.eqb_spec c slash) as [->|Hc].
  - destruct (split rest) as [|seg segs] eqn:E; [now apply split_nonempty in E|].
    simpl in *. now rewrite IH.
  - destruct (split rest) as [|seg segs] eqn:E; [now apply split_nonempty in E|].
    destruct segs; simpl in *; now rewrite <- IH.
Qed.

Lemma normalizeSegment_ordinary (above : bool) (kept : list string) (seg : string) :
  ordinary seg = true -> normalizeSegment above kept seg = seg :: kept.
Proof.
  unfold ordinary, normalizeSegment. intros Hord.
  apply negb_true_iff in Hord.
  apply orb_false_iff in Hord as [Hord Hdotdot].
  now rewrite Hord, Hdotdot.
Qed.

Lemma normalize_ordinary (above : bool) (segs kept : list string) :
  forallb ordinary segs = true ->
  fold_left (normalizeSegment above) segs kept = (rev segs ++ kept)%list.
Proof.
  revert kept. induction segs as [|seg segs IH]; intros kept Hall; simpl in *.
  - reflexivity.
  - apply andb_true_iff in Hall as [Hseg Hall].
    rewrite normalizeSegment_ordinary by assumption.
    rewrite IH by assumption.
    now rewrite <- app_assoc.
Qed.

(** With an absolute second-to-last argument, the loop of [resolve] stops
    before it reaches the working directory. *)
Lemma prepend_absolute_base (base rel workdir : string) :
  isAbsolute base = true ->
  prepend [rel; base; workdir] "" =
    if isEmpty rel then (base ++ "/", true)
    else if isAbsolute rel then (rel ++ "/", true)
    else (base ++ "/" ++ rel ++ "/", true).
Proof.
  intros Habs. simpl.
  assert (isEmpty base = false) as ->
    by (destruct base; [discriminate | reflexivity]).
  rewrite Habs.
  destruct (isEmpty rel); [reflexivity|].
  destruct (isAbsolute rel); reflexivity.
Qed.

(** Resolving against an absolute directory never consults the working
    directory. *)
Lemma resolve_absolute_base (base rel workdir workdir' : string) :
  isAbsolute base = true ->
  resolve workdir [base; rel] = resolve workdir' [base; rel].
Proof.
  intros Habs. unfold resolve. simpl rev. simpl app.
  now rewrite !prepend_absolute_base by assumption.
Qed.

(** ... and the result is absolute. *)
Lemma resolve_absolute (base rel workdir : string) :
  isAbsolute base = true ->
  isAbsolute (resolve workdir [base; rel]) = true.
Proof.
  intros Habs. unfold resolve. simpl rev. simpl app.
  rewrite prepend_absolute_base by assumption.
  destruct (isEmpty rel); [reflexivity|].
  destruct (isAbsolute rel); reflexivity.
Qed.

(** A relative path of ordinary segments is appended to the normalised
    directory unchanged. *)
Lemma resolve_ordinary (base rel workdir : string) :
  isAbsolute base = true ->
  isEmpty rel = false ->
  isAbsolute rel = false ->
  forallb ordinary (split rel) = true ->
  resolve workdir [base; rel] =
    "/" ++ String.concat "/"
             (rev (fold_left (normalizeSegment false) (split base) []) ++ split rel)%list.
Proof.
  intros Habs Hne Hrel Hord. unfold resolve. simpl rev. simpl app.
  rewrite prepend_absolute_base by assumption.
  rewrite Hne, Hrel. simpl negb. cbv iota.
  unfold normalizeString.
  change (base ++ "/" ++ rel ++ "/") with (base ++ String slash (rel ++ String slash "")).
  rewrite !split_append_slash, !fold_left_app.
  rewrite (normalize_ordinary false (split rel)) by assumption.
  simpl fold_left.
  change (normalizeSegment false ?kept "") with kept.
  now rewrite rev_app_distr, rev_involutive.
Qed.

Lemma concat_tail (front back : list string) :
  back <> [] ->
  exists before,
    "/" ++ String.concat "/" (front ++ back)%list = before ++ "/" ++ String.concat "/" back.
Proof.
  intros Hback. induction front as [|seg front [before IH]].
  - now exists "".
  - exists ("/" ++ seg ++ before).
    change ((seg :: front) ++ back)%list with (seg :: (front ++ back))%list.
    destruct (front ++ back)%list as [|x rest] eqn:E.
    + apply app_eq_nil in E as [_ E]. contradiction.
    + change (String.concat "/" (seg :: x :: rest))
        with (seg ++ "/" ++ String.concat "/" (x :: rest)).
      rewrite IH. now rewrite !append_assoc.
Qed.

(** So the resolved path is some prefix, a separator, and that relative
    path. *)
Lemma resolve_suffix (base rel workdir : string) :
  isAbsolute base = true ->
  isEmpty rel = false ->
  isAbsolute rel = false ->
  forallb ordinary (split rel) = true ->
  exists before, resolve workdir [base; rel] = before ++ "/" ++ rel.
Proof.
  intros Habs Hne Hrel Hord.
  rewrite resolve_ordinary by assumption.
  destruct (concat_tail (rev (fold_left (normalizeSegment false) (split base) []))
              (split rel) (split_nonempty rel)) as [before ->].
  rewrite concat_split. now exists before.
Qed.

End PathFacts.

(** ** Running the exported function *)

Section Run.
Context {Number : Type} `{NumberOps Number}.

(** Mode selection reads [argv] only, never throws, and leaves the process
    as it found it. *)
Lemma select_mode_run (argv : JsValue Number) (p : Process) :
  select_mode argv p = (Normal (selected_mode argv), p).
Proof.
  unfold select_mode, selected_mode, bind, lift, ret.
  destruct argv as [| |b|n|s|d|props]; simpl; try reflexivity.
  - now destruct b.
  - destruct (NumberToBoolean n) eqn:E; simpl; now rewrite ?E.
  - now destruct s.
  - destruct (lookup "mode" props) as [requested|]; [|reflexivity].
    now destruct (ToBoolean requested).
Qed.

(** The whole function in one equation: it throws exactly when the selected
    mode has no string form, before anything is printed; otherwise it prints
    one line and returns the configuration. *)
Lemma module_exports_run (dirname : string) (env argv : JsValue Number) (p : Process) :
  module_exports dirname env argv p =
    match ToString (selected_mode argv) with
    | Normal modeText =>
        (Normal (configuration_for dirname (cwd p) (selected_mode argv)),
         {| cwd := cwd p; stdout := stdout p ++ ["Building " ++ modeText ++ "..."] |})
    | Throw e => (Throw e, p)
    end.
Proof.
  unfold module_exports, bind at 1.
  rewrite select_mode_run.
  unfold bind, lift.
  now destruct (ToString (selected_mode argv)).
Qed.

Lemma module_exports_returned (dirname : string) (env argv : JsValue Number)
    (p p' : Process) (cfg : Configuration) :
  module_exports dirname env argv p = (Normal cfg, p') ->
  exists modeText,
    ToString (selected_mode argv) = Normal modeText /\
    cfg = configuration_for dirname (cwd p) (selected_mode argv) /\
    p' = {| cwd := cwd p; stdout := stdout p ++ ["Building " ++ modeText ++ "..."] |}.
Proof.
  rewrite module_exports_run.
  destruct (ToString (selected_mode argv)) as [modeText|e]; [|discriminate].
  intros [= <- <-]. now exists modeText.
Qed.

(** A requested non-empty string is the selected mode. *)
Lemma selected_mode_requested (argv : JsValue Number) (s : string) :
  GetV argv "mode" = Normal (JsString s) -> s <> "" ->
  selected_mode argv = JsString s.
Proof.
  intros Hget Hs. unfold selected_mode.
  destruct argv as [| |b|n|s'|d|props]; simpl in Hget; try discriminate.
  destruct (lookup "mode" props) as [requested|]; [|discriminate].
  injection Hget as ->. simpl.
  destruct s; [contradiction | reflexivity].
Qed.

(** Without a request the default stands. *)
Lemma selected_mode_default (argv : JsValue Number) :
  argv = JsUndefined \/ argv = JsNull \/
  GetV argv "mode" = Normal JsUndefined \/ GetV argv "mode" = Normal (JsString "") ->
  selected_mode argv = JsString "production".
Proof.
  unfold selected_mode.
  intros [-> | [-> | Hget]]; try reflexivity.
  destruct argv as [| |b|n|s'|d|props]; try reflexivity.
  simpl in Hget.
  destruct (lookup "mode" props) as [requested|]; [|reflexivity].
  destruct Hget as [[= ->] | [= ->]]; reflexivity.
Qed.

(** C1. Whenever [argv.mode] is a non-empty string, the function returns a
    configuration whose [mode] field is exactly that string. *)
Theorem mode_is_requested_mode (dirname : string) (env argv : JsValue Number)
    (s : string) (p : Process) :
  GetV argv "mode" = Normal (JsString s) ->
  s <> "" ->
  exists cfg p',
    module_exports dirname env argv p = (Normal cfg, p') /\
    mode cfg = JsString s.
Proof.
  intros Hget Hs.
  rewrite module_exports_run, (selected_mode_requested argv s Hget Hs).
  simpl. eauto.
Qed.

(** C2. Whenever [argv] is [undefined] or [null], or [argv.mode] is absent
    or the empty string, the function returns a configuration whose [mode]
    field is ["production"]. *)
Theorem mode_defaults_to_production (dirname : string) (env argv : JsValue Number)
    (p : Process) :
  argv = JsUndefined \/ argv = JsNull \/
  GetV argv "mode" = Normal JsUndefined \/ GetV argv "mode" = Normal (JsString "") ->
  exists cfg p',
    module_exports dirname env argv p = (Normal cfg, p') /\
    mode cfg = JsString "production".
Proof.
  intros Habsent.
  rewrite module_exports_run, (selected_mode_default argv Habsent).
  simpl. eauto.
Qed.

(** C3. Every returned configuration lists exactly two plugin activations,
    [CleanWebpackPlugin] first and [WasmPackPlugin] second, and the second
    one's [forceMode] is the configuration's own [mode]; in particular a
    ["development"] configuration forces ["development"]. *)
Theorem plugins_follow_mode (dirname : string) (env argv : JsValue Number)
    (p p' : Process) (cfg : Configuration) :
  module_exports dirname env argv p = (Normal cfg, p') ->
  exists options,
    plugins cfg = [CleanWebpackPlugin; WasmPackPlugin options] /\
    forceMode options = mode cfg /\
    (mode cfg = JsString "development" -> forceMode options = JsString "development").
Proof.
  intros Hrun.
  apply module_exports_returned in Hrun as (modeText & _ & -> & _).
  eexists. split; [reflexivity|]. split; [reflexivity|]. trivial.
Qed.

(** The two entry scripts and the output directory are relative paths of
    ordinary segments. *)
Lemma resolved_under_dirname (dirname workdir rel : string) :
  Path.isAbsolute dirname = true ->
  In rel ["js/index.js"; "js/popup.js"; "build/dist"] ->
  Path.isAbsolute (Path.resolve workdir [dirname; rel]) = true /\
  endsWith (Path.resolve workdir [dirname; rel]) rel = true /\
  endsWith (Path.resolve workdir [dirname; rel]) ("/" ++ rel) = true.
Proof.
  intros Habs Hrel.
  split; [now apply PathFacts.resolve_absolute|].
  assert (isEmpty rel = false /\ Path.isAbsolute rel = false /\
          forallb Path.ordinary (Path.split rel) = true) as (Hne & Hnot & Hord)
    by (simpl in Hrel; decompose [or] Hrel; subst; try contradiction; now vm_compute).
  destruct (PathFacts.resolve_suffix dirname rel workdir Habs Hne Hnot Hord)
    as [before Hresolved].
  rewrite Hresolved. split.
  - change (before ++ "/" ++ rel) with (before ++ ("/" ++ rel)).
    rewrite <- append_assoc. apply endsWith_append.
  - apply endsWith_append.
Qed.

(** C4. Every returned configuration has exactly the two entries [ruffle]
    and [popup], in that order; their paths are absolute, end with
    [js/index.js] and [js/popup.js], and are the same whatever the working
    directory of the process. *)
Theorem entry_points_fixed (dirname : string) (env argv : JsValue Number)
    (p p' : Process) (cfg : Configuration) :
  Path.isAbsolute dirname = true ->
  module_exports dirname env argv p = (Normal cfg, p') ->
  exists ruffle popup,
    entry cfg = [("ruffle", ruffle); ("popup", popup)] /\
    (Path.isAbsolute ruffle = true /\ endsWith ruffle "js/index.js" = true) /\
    (Path.isAbsolute popup = true /\ endsWith popup "js/popup.js" = true) /\
    forall workdir,
      ruffle = Path.resolve workdir [dirname; "js/index.js"] /\
      popup = Path.resolve workdir [dirname; "js/popup.js"].
Proof.
  intros Habs Hrun.
  apply module_exports_returned in Hrun as (modeText & _ & -> & _).
  do 2 eexists. split; [reflexivity|].
  destruct (resolved_under_dirname dirname (cwd p) "js/index.js" Habs) as (? & ? & _);
    [simpl; tauto|].
  destruct (resolved_under_dirname dirname (cwd p) "js/popup.js" Habs) as (? & ? & _);
    [simpl; tauto|].
  repeat split; try assumption; now apply PathFacts.resolve_absolute_base.
Qed.

(** C5. The output descriptor is the same in any two returned
    configurations, whatever [env], [argv] and the process: the directory
    [build/dist] under the configuration file's directory, the file name
    pattern ["[name].js"], the chunk file name ["core.ruffle.js"] and the
    namespace ["RufflePlayerExtensionLoader"]. *)
Theorem output_is_constant (dirname : string)
    (env1 argv1 env2 argv2 : JsValue Number)
    (p1 p1' p2 p2' : Process) (cfg1 cfg2 : Configuration) :
  Path.isAbsolute dirname = true ->
  module_exports dirname env1 argv1 p1 = (Normal cfg1, p1') ->
  module_exports dirname env2 argv2 p2 = (Normal cfg2, p2') ->
  output cfg1 = output cfg2 /\
  path (output cfg1) = Path.resolve "/" [dirname; "build/dist"] /\
  endsWith (path (output cfg1)) "/build/dist" = true /\
  filename (output cfg1) = "[name].js" /\
  chunkFilename (output cfg1) = "core.ruffle.js" /\
  jsonpFunction (output cfg1) = "RufflePlayerExtensionLoader".
Proof.
  intros Habs Hrun1 Hrun2.
  apply module_exports_returned in Hrun1 as (? & _ & -> & _).
  apply module_exports_returned in Hrun2 as (? & _ & -> & _).
  simpl.
  rewrite (PathFacts.resolve_absolute_base dirname "build/dist" (cwd p1) (cwd p2) Habs).
  rewrite (PathFacts.resolve_absolute_base dirname "build/dist" (cwd p2) "/" Habs).
  repeat split.
  apply (resolved_under_dirname dirname "/" "build/dist" Habs). simpl; tauto.
Qed.

(** C6. Called with [argv = { mode: "development" }], the function returns a
    configuration in ["development"] mode, with the entries [ruffle] and
    [popup] at absolute paths ending with [js/index.js] and [js/popup.js],
    and whose second plugin carries the forced mode ["development"]. *)
Theorem development_example (dirname : string) (env : JsValue Number) (p : Process) :
  Path.isAbsolute dirname = true ->
  exists cfg p' ruffle popup options,
    module_exports dirname env (JsObject [("mode", JsString "development")]) p
      = (Normal cfg, p') /\
    mode cfg = JsString "development" /\
    entry cfg = [("ruffle", ruffle); ("popup", popup)] /\
    (Path.isAbsolute ruffle = true /\ endsWith ruffle "js/index.js" = true) /\
    (Path.isAbsolute popup = true /\ endsWith popup "js/popup.js" = true) /\
    nth_error (plugins cfg) 1 = Some (WasmPackPlugin options) /\
    forceMode options = JsString "development".
Proof.
  intros Habs.
  rewrite module_exports_run. simpl.
  do 5 eexists. split; [reflexivity|]. simpl.
  destruct (resolved_under_dirname dirname (cwd p) "js/index.js" Habs) as (? & ? & _);
    [simpl; tauto|].
  destruct (resolved_under_dirname dirname (cwd p) "js/popup.js" Habs) as (? & ? & _);
    [simpl; tauto|].
  repeat split; assumption.
Qed.

(** C7. The outcome is a function of [env], [argv] and the configuration
    file's directory alone: run in any two processes (any working
    directories, any earlier console output) the function completes the
    same way, with the same configuration or the same error, and prints the
    same lines. *)
Theorem deterministic (dirname : string) (env argv : JsValue Number) (p1 p2 : Process) :
  Path.isAbsolute dirname = true ->
  fst (module_exports dirname env argv p1) = fst (module_exports dirname env argv p2) /\
  exists printed,
    stdout (snd (module_exports dirname env argv p1)) = (stdout p1 ++ printed)%list /\
    stdout (snd (module_exports dirname env argv p2)) = (stdout p2 ++ printed)%list.
Proof.
  intros Habs. rewrite !module_exports_run.
  destruct (ToString (selected_mode argv)) as [modeText|e]; simpl.
  - split; [|now eexists].
    unfold configuration_for.
    now rewrite !(fun rel => PathFacts.resolve_absolute_base dirname rel (cwd p1) (cwd p2) Habs).
  - split; [reflexivity|]. exists []. now rewrite !app_nil_r.
Qed.

(** C8, amended. Whenever the selected mode has a string form, the function
    returns a configuration, and that configuration carries the selected
    mode unchecked. *)
Theorem returns_when_mode_prints (dirname : string) (env argv : JsValue Number)
    (p : Process) :
  hasStringForm (selected_mode argv) = true ->
  exists cfg p',
    module_exports dirname env argv p = (Normal cfg, p') /\
    mode cfg = selected_mode argv.
Proof.
  unfold hasStringForm. intros Hprints.
  rewrite module_exports_run.
  destruct (ToString (selected_mode argv)) as [modeText|e]; [|discriminate].
  simpl. eauto.
Qed.

(** C9, amended. Whenever the function returns, it has printed exactly one line,
    ["Building <mode>..."] with the string form of the returned mode, and
    has changed nothing else in the process. *)
Theorem logs_selected_mode (dirname : string) (env argv : JsValue Number)
    (p p' : Process) (cfg : Configuration) :
  module_exports dirname env argv p = (Normal cfg, p') ->
  exists modeText,
    ToString (mode cfg) = Normal modeText /\
    stdout p' = (stdout p ++ [("Building " ++ modeText ++ "...")%string])%list /\
    cwd p' = cwd p.
Proof.
  intros Hrun.
  apply module_exports_returned in Hrun as (modeText & Htext & -> & ->).
  exists modeText. simpl. auto.
Qed.

(** C10. The [env] argument is ignored: changing it changes neither the
    completion nor the process the function leaves behind. *)
Theorem env_is_ignored (dirname : string) (env1 env2 argv : JsValue Number) (p : Process) :
  module_exports dirname env1 argv p = module_exports dirname env2 argv p.
Proof.
  now rewrite !module_exports_run.
Qed.

End Run.

(** ** Concrete runs *)

Example development_run :
  module_exports extension_dir JsUndefined development_argv fresh_process
  = (Normal development_configuration, after_development fresh_process).
Proof. reflexivity. Qed.

(** A numeric mode is passed through as it is and printed in decimal. *)
Example numeric_mode_run :
  exists cfg,
    module_exports extension_dir JsUndefined (JsObject [("mode", JsNumber 5%Z)]) fresh_process
    = (Normal cfg, {| cwd := "/home/user/ruffle"; stdout := ["Building 5..."] |}) /\
    mode cfg = JsNumber 5%Z.
Proof. eexists. split; reflexivity. Qed.

(** Falsy requests fall back to the default: [0], [false], [null]. *)
Example falsy_mode_run :
  forall requested : JsValue Z,
    In requested [JsNumber 0%Z; JsBoolean false; JsNull; JsString ""] ->
    selected_mode (JsObject [("mode", requested)]) = JsString "production".
Proof.
  intros requested Hin. simpl in Hin.
  decompose [or] Hin; subst; try contradiction; reflexivity.
Qed.

(** A relative [__dirname] would be resolved against the working directory;
    Node always binds an absolute one. *)
Example relative_dirname_run :
  Path.resolve "/tmp" ["extension"; "js/index.js"] = "/tmp/extension/js/index.js" /\
  Path.resolve "/tmp" ["/srv/../opt/./extension/"; "js/index.js"] = "/opt/extension/js/index.js".
Proof. split; reflexivity. Qed.

Lemma mode_is_requested_mode_witness :
  GetV development_argv "mode" = Normal (JsString "development") /\
  "development" <> "" /\
  exists cfg p',
    module_exports extension_dir JsUndefined development_argv fresh_process = (Normal cfg, p') /\
    mode cfg = JsString "development".
Proof.
  split; [reflexivity|]. split; [discriminate|].
  apply (mode_is_requested_mode extension_dir JsUndefined development_argv
           "development" fresh_process); [reflexivity | discriminate].
Defined.

Lemma mode_defaults_to_production_witness :
  exists cfg p',
    module_exports extension_dir (JsUndefined (Number:=Z)) JsUndefined fresh_process
      = (Normal cfg, p') /\
    mode cfg = JsString "production".
Proof.
  apply (mode_defaults_to_production extension_dir JsUndefined JsUndefined fresh_process).
  left. reflexivity.
Defined.

Lemma plugins_follow_mode_witness :
  exists options,
    plugins development_configuration = [CleanWebpackPlugin; WasmPackPlugin options] /\
    forceMode options = mode development_configuration /\
    (mode development_configuration = JsString "development" ->
     forceMode options = JsString "development").
Proof.
  apply (plugins_follow_mode extension_dir JsUndefined development_argv
           fresh_process (after_development fresh_process)).
  reflexivity.
Defined.

Lemma entry_points_fixed_witness :
  exists ruffle popup,
    entry development_configuration = [("ruffle", ruffle); ("popup", popup)] /\
    (Path.isAbsolute ruffle = true /\ endsWith ruffle "js/index.js" = true) /\
    (Path.isAbsolute popup = true /\ endsWith popup "js/popup.js" = true) /\
    forall workdir,
      ruffle = Path.resolve workdir [extension_dir; "js/index.js"] /\
      popup = Path.resolve workdir [extension_dir; "js/popup.js"].
Proof.
  apply (entry_points_fixed extension_dir JsUndefined development_argv
           fresh_process (after_development fresh_process));
    reflexivity.
Defined.

Lemma output_is_constant_witness :
  output development_configuration
    = output (configuration_for extension_dir "/tmp" (JsString (Number:=Z) "production")) /\
  path (output development_configuration) = Path.resolve "/" [extension_dir; "build/dist"] /\
  endsWith (path (output development_configuration)) "/build/dist" = true /\
  filename (output development_configuration) = "[name].js" /\
  chunkFilename (output development_configuration) = "core.ruffle.js" /\
  jsonpFunction (output development_configuration) = "RufflePlayerExtensionLoader".
Proof.
  apply (output_is_constant extension_dir
           JsUndefined development_argv (JsNumber 1%Z) JsNull
           fresh_process (after_development fresh_process)
           busy_process
           {| cwd := "/tmp"; stdout := ["npm run build"; "Building production..."] |});
    reflexivity.
Defined.

Lemma development_example_witness :
  Path.isAbsolute extension_dir = true /\
  exists cfg p' ruffle popup options,
    module_exports extension_dir (JsUndefined (Number:=Z)) development_argv busy_process
      = (Normal cfg, p') /\
    mode cfg = JsString "development" /\
    entry cfg = [("ruffle", ruffle); ("popup", popup)] /\
    (Path.isAbsolute ruffle = true /\ endsWith ruffle "js/index.js" = true) /\
    (Path.isAbsolute popup = true /\ endsWith popup "js/popup.js" = true) /\
    nth_error (plugins cfg) 1 = Some (WasmPackPlugin options) /\
    forceMode options = JsString "development".
Proof.
  split; [reflexivity|].
  apply (development_example extension_dir JsUndefined busy_process).
  reflexivity.
Defined.

Lemma deterministic_witness :
  Path.isAbsolute extension_dir = true /\
  fst (module_exports extension_dir JsUndefined development_argv fresh_process)
    = fst (module_exports extension_dir JsUndefined development_argv busy_process) /\
  exists printed,
    stdout (snd (module_exports extension_dir JsUndefined development_argv fresh_process))
      = (stdout fresh_process ++ printed)%list /\
    stdout (snd (module_exports extension_dir JsUndefined development_argv busy_process))
      = (stdout busy_process ++ printed)%list.
Proof.
  split; [reflexivity|].
  apply (deterministic extension_dir JsUndefined development_argv fresh_process busy_process).
  reflexivity.
Defined.

(** C8, as stated, fails: a Symbol for [argv.mode] is truthy, is selected,
    and cannot be printed by the template literal; the call throws a
    [TypeError] before it prints or returns anything. *)
Lemma symbol_mode_throws :
  module_exports extension_dir JsUndefined symbol_argv fresh_process
  = (Throw (TypeError "Cannot convert a Symbol value to a string"), fresh_process).
Proof. reflexivity. Qed.

Lemma returns_when_mode_prints_witness :
  hasStringForm (selected_mode (JsObject [("mode", JsNumber 5%Z)])) = true /\
  exists cfg p',
    module_exports extension_dir JsUndefined (JsObject [("mode", JsNumber 5%Z)]) fresh_process
      = (Normal cfg, p') /\
    mode cfg = selected_mode (JsObject [("mode", JsNumber 5%Z)]).
Proof.
  split; [reflexivity|].
  apply (returns_when_mode_prints extension_dir JsUndefined
           (JsObject [("mode", JsNumber 5%Z)]) fresh_process).
  reflexivity.
Defined.

(** C9, as stated, fails on the same input: the call that throws on a Symbol
    mode has printed nothing. *)
Lemma symbol_mode_prints_nothing :
  fst (module_exports extension_dir JsUndefined symbol_argv busy_process)
    = Throw (TypeError "Cannot convert a Symbol value to a string") /\
  stdout (snd (module_exports extension_dir JsUndefined symbol_argv busy_process))
    = stdout busy_process.
Proof. split; reflexivity. Qed.

Lemma logs_selected_mode_witness :
  exists modeText,
    ToString (mode development_configuration) = Normal modeText /\
    stdout (after_development busy_process)
      = (stdout busy_process ++ [("Building " ++ modeText ++ "...")%string])%list /\
    cwd (after_development busy_process) = cwd busy_process.
Proof.
  apply (logs_selected_mode extension_dir JsUndefined development_argv busy_process).
  reflexivity.
Defined.

(** ** Further properties of the exported function *)

Module NormalForm.
Import Path.

(** A segment produced by [split] holds no separator. *)
Lemma split_atomic (p seg : string) : In seg (split p) -> split seg = [seg].
Proof.
  revert seg. induction p as [|c rest IH]; intros seg Hin; simpl in Hin.
  - destruct Hin as [<- | []]. reflexivity.
  - destruct (Ascii.eqb c slash) eqn:Hc.
    + destruct Hin as [<- | Hin]; [reflexivity | now apply IH].
    + destruct (split rest) as [|seg0 segs] eqn:E; [now apply PathFacts.split_nonempty in E|].
      destruct Hin as [<- | Hin].
      * simpl. rewrite Hc, (IH seg0) by now left. reflexivity.
      * apply IH. now right.
Qed.

(** Splitting undoes joining, for separator-free segments. *)
Lemma split_concat (segs : list string) :
  segs <> [] ->
  (forall seg, In seg segs -> split seg = [seg]) ->
  split (String.concat "/" segs) = segs.
Proof.
  induction segs as [|x rest IH]; intros Hne Hatomic; [contradiction|].
  destruct rest as [|y rest].
  - simpl. apply Hatomic. now left.
  - change (String.concat "/" (x :: y :: rest))
      with (x ++ String slash (String.concat "/" (y :: rest))).
    rewrite PathFacts.split_append_slash, IH.
    + rewrite (Hatomic x) by now left. reflexivity.
    + discriminate.
    + intros seg Hin. apply Hatomic. now right.
Qed.

(** Normalisation invents no segment. *)
Lemma normalizeSegment_subset (above : bool) (kept : list string) (seg x : string) :
  In x (normalizeSegment above kept seg) -> x = seg \/ In x kept.
Proof.
  unfold normalizeSegment.
  destruct (String.eqb seg "" || String.eqb seg "."); [now right|].
  destruct (String.eqb_spec seg "..") as [->|_].
  - destruct kept as [|last before].
    + destruct above; simpl; intuition.
    + destruct (String.eqb last ".."); [destruct above|]; simpl; intuition.
  - simpl. intuition.
Qed.

Lemma normalize_subset (above : bool) (segs kept : list string) (x : string) :
  In x (fold_left (normalizeSegment above) segs kept) -> In x segs \/ In x kept.
Proof.
  revert kept. induction segs as [|seg segs IH]; intros kept Hin; simpl in *.
  - now right.
  - apply IH in Hin as [Hin | Hin]; [now left; right|].
    apply normalizeSegment_subset in Hin as [-> | Hin]; [left; now left | now right].
Qed.

(** Below the root, normalisation keeps ordinary segments only. *)
Lemma normalizeSegment_keeps_ordinary (kept : list string) (seg : string) :
  forallb ordinary kept = true ->
  forallb ordinary (normalizeSegment false kept seg) = true.
Proof.
  intros Hkept. unfold normalizeSegment.
  destruct (String.eqb seg "" || String.eqb seg ".") eqn:Hdot; [assumption|].
  destruct (String.eqb seg "..") eqn:Hdotdot.
  - destruct kept as [|last before]; [reflexivity|].
    destruct (String.eqb last ".."); [assumption|].
    simpl in Hkept. now apply andb_true_iff in Hkept.
  - simpl. unfold ordinary at 1. now rewrite Hdot, Hdotdot.
Qed.

Lemma normalize_keeps_ordinary (segs kept : list string) :
  forallb ordinary kept = true ->
  forallb ordinary (fold_left (normalizeSegment false) segs kept) = true.
Proof.
  revert kept. induction segs as [|seg segs IH]; intros kept Hkept; simpl.
  - assumption.
  - now apply IH, normalizeSegment_keeps_ordinary.
Qed.

Lemma segments_ordinary (p : string) : forallb ordinary (segments p) = true.
Proof.
  unfold segments. apply forallb_forall. intros x Hin. apply in_rev in Hin.
  pose proof (normalize_keeps_ordinary (split p) [] eq_refl) as Hall.
  rewrite forallb_forall in Hall. now apply Hall.
Qed.

Lemma segments_atomic (p seg : string) : In seg (segments p) -> split seg = [seg].
Proof.
  unfold segments. intros Hin. apply in_rev in Hin.
  apply normalize_subset in Hin as [Hin | []].
  now apply split_atomic in Hin.
Qed.

Lemma concat_cons (x : string) (rest : list string) :
  rest <> [] ->
  String.concat "/" (x :: rest) = x ++ "/" ++ String.concat "/" rest.
Proof.
  destruct rest; [contradiction | reflexivity].
Qed.

Lemma concat_under (front back : list string) :
  back <> [] ->
  "/" ++ String.concat "/" (front ++ back)%list
  = directory_prefix front ++ "/" ++ String.concat "/" back.
Proof.
  intros Hback. induction front as [|seg front IH]; [reflexivity|].
  change ((seg :: front) ++ back)%list with (seg :: (front ++ back))%list.
  rewrite concat_cons
    by (intros E; apply app_eq_nil in E; now destruct E).
  rewrite IH.
  destruct front as [|next front].
  - reflexivity.
  - unfold directory_prefix.
    rewrite (concat_cons seg (next :: front)) by discriminate.
    now rewrite !append_assoc.
Qed.

(** A relative path of ordinary segments lands under the normalised
    directory. *)
Lemma resolve_under (base rel workdir : string) :
  isAbsolute base = true ->
  isEmpty rel = false ->
  isAbsolute rel = false ->
  forallb ordinary (split rel) = true ->
  resolve workdir [base; rel] = directory_prefix (segments base) ++ "/" ++ rel.
Proof.
  intros Habs Hne Hrel Hord.
  rewrite PathFacts.resolve_ordinary by assumption.
  fold (segments base).
  rewrite concat_under by apply PathFacts.split_nonempty.
  now rewrite PathFacts.concat_split.
Qed.

(** ... and is in normal form: after the leading separator it splits into
    the directory's segments followed by its own. *)
Lemma split_resolved (base rel workdir : string) :
  isAbsolute base = true ->
  isEmpty rel = false ->
  isAbsolute rel = false ->
  forallb ordinary (split rel) = true ->
  split (resolve workdir [base; rel]) = "" :: (segments base ++ split rel)%list.
Proof.
  intros Habs Hne Hrel Hord.
  rewrite PathFacts.resolve_ordinary by assumption.
  fold (segments base).
  change ("/" ++ ?rest) with (String slash rest).
  cbn [split]. rewrite Ascii.eqb_refl.
  rewrite split_concat; [reflexivity | |].
  - intros E. apply app_eq_nil in E as [_ E]. now apply PathFacts.split_nonempty in E.
  - intros seg Hin. apply in_app_or in Hin as [Hin | Hin].
    + now apply segments_atomic in Hin.
    + now apply split_atomic in Hin.
Qed.

(** [".."] under an absolute directory drops its last segment; the root is
    its own parent. *)
Lemma resolve_parent (base workdir : string) :
  isAbsolute base = true ->
  resolve workdir [base; ".."] = "/" ++ String.concat "/" (removelast (segments base)).
Proof.
  intros Habs. unfold resolve. simpl rev. simpl app.
  rewrite PathFacts.prepend_absolute_base by assumption.
  cbn [isEmpty isAbsolute Ascii.eqb Bool.eqb slash negb].
  unfold normalizeString.
  change (base ++ "/" ++ ".." ++ "/") with (base ++ String slash (".." ++ String slash "")).
  rewrite !PathFacts.split_append_slash, !fold_left_app.
  pose proof (normalize_keeps_ordinary (split base) [] eq_refl) as Hall.
  unfold segments.
  destruct (fold_left (normalizeSegment false) (split base) []) as [|last before].
  - reflexivity.
  - simpl in Hall. apply andb_true_iff in Hall as [Hlast _].
    assert (String.eqb last ".." = false) as Hnot.
    { unfold ordinary in Hlast. apply negb_true_iff, orb_false_iff in Hlast. tauto. }
    replace (fold_left (normalizeSegment false) (split "")
               (fold_left (normalizeSegment false) (split "..") (last :: before)))
      with before.
    + cbn [rev]. now rewrite removelast_last.
    + simpl. unfold normalizeSegment at 2. simpl. now rewrite Hnot.
Qed.

End NormalForm.

Section Further.
Context {Number : Type} `{NumberOps Number}.

Lemma selected_mode_truthy (argv m : JsValue Number) :
  GetV argv "mode" = Normal m -> ToBoolean m = true -> selected_mode argv = m.
Proof.
  intros Hget Htruthy. unfold selected_mode.
  destruct argv as [| |b|n|s|d|props]; simpl in Hget;
    try discriminate; try (injection Hget as <-; discriminate).
  destruct (lookup "mode" props) as [requested|]; injection Hget as <-.
  - now rewrite Htruthy.
  - discriminate.
Qed.

Lemma selected_mode_falsy (argv : JsValue Number) :
  ToBoolean argv = false \/
  (exists m, GetV argv "mode" = Normal m /\ ToBoolean m = false) ->
  selected_mode argv = JsString "production".
Proof.
  unfold selected_mode.
  destruct argv as [| |b|n|s|d|props]; try reflexivity.
  intros [Hargv | (m & Hget & Hfalsy)]; [discriminate|].
  simpl in Hget.
  destruct (lookup "mode" props) as [requested|]; [|reflexivity].
  injection Hget as ->. now rewrite Hfalsy.
Qed.

Lemma selected_mode_cases (argv : JsValue Number) :
  ToBoolean (selected_mode argv) = true /\
  (selected_mode argv = JsString "production" \/
   GetV argv "mode" = Normal (selected_mode argv)).
Proof.
  unfold selected_mode.
  destruct argv as [| |b|n|s|d|props]; simpl; try (split; [reflexivity | now left]).
  destruct (lookup "mode" props) as [requested|]; [|split; [reflexivity | now left]].
  destruct (ToBoolean requested) eqn:Htruthy; [|split; [reflexivity | now left]].
  split; [assumption | now right].
Qed.



(** X1. No validation: any truthy [argv.mode] that prints, a string or not,
    becomes the configuration's [mode] and the plugin's [forceMode] as it
    is, and its string form is what the log line names. *)
Theorem truthy_mode_passes_through (dirname : string) (env argv m : JsValue Number)
    (text : string) (p : Process) :
  GetV argv "mode" = Normal m ->
  ToBoolean m = true ->
  ToString m = Normal text ->
  exists cfg options,
    module_exports dirname env argv p
      = (Normal cfg,
         {| cwd := cwd p; stdout := stdout p ++ ["Building " ++ text ++ "..."] |}) /\
    mode cfg = m /\
    plugins cfg = [CleanWebpackPlugin; WasmPackPlugin options] /\
    forceMode options = m.
Proof.
  intros Hget Htruthy Htext.
  rewrite module_exports_run, (selected_mode_truthy argv m Hget Htruthy), Htext.
  do 2 eexists. repeat split.
Qed.

(** X2. Every falsy request falls back to the default, not only a missing
    or empty one: when [argv] is falsy, or [argv.mode] is any falsy value
    ([0], [false], [null], ...), the function prints
    ["Building production..."] and returns the ["production"] mode. *)
Theorem falsy_request_defaults (dirname : string) (env argv : JsValue Number)
    (p : Process) :
  ToBoolean argv = false \/
  (exists m, GetV argv "mode" = Normal m /\ ToBoolean m = false) ->
  exists cfg,
    module_exports dirname env argv p
      = (Normal cfg,
         {| cwd := cwd p; stdout := stdout p ++ ["Building production..."] |}) /\
    mode cfg = JsString "production".
Proof.
  intros Hfalsy.
  rewrite module_exports_run, (selected_mode_falsy argv Hfalsy).
  simpl. eexists. split; reflexivity.
Qed.

(** X3. The mode of a returned configuration is never falsy, and it is
    either the default ["production"] or the very value read from
    [argv.mode]. *)
Theorem returned_mode_is_truthy (dirname : string) (env argv : JsValue Number)
    (p p' : Process) (cfg : Configuration) :
  module_exports dirname env argv p = (Normal cfg, p') ->
  ToBoolean (mode cfg) = true /\
  (mode cfg = JsString "production" \/ GetV argv "mode" = Normal (mode cfg)).
Proof.
  intros Hrun.
  apply module_exports_returned in Hrun as (modeText & _ & -> & _).
  apply selected_mode_cases.
Qed.

(** X4. Of an [argv] object only the [mode] property is read: two objects
    with the same [mode], whatever else they hold, and any two [env], give
    the same completion and the same process. *)
Theorem only_mode_is_read (dirname : string) (env1 env2 : JsValue Number)
    (props1 props2 : list (string * JsValue Number)) (p : Process) :
  lookup "mode" props1 = lookup "mode" props2 ->
  module_exports dirname env1 (JsObject props1) p
  = module_exports dirname env2 (JsObject props2) p.
Proof.
  intros Hsame. rewrite !module_exports_run.
  unfold selected_mode. now rewrite Hsame.
Qed.



Lemma relative_targets (rel : string) :
  In rel ["js/index.js"; "js/popup.js"; "build/dist"] ->
  isEmpty rel = false /\ Path.isAbsolute rel = false /\
  forallb Path.ordinary (Path.split rel) = true.
Proof.
  intros Hrel. simpl in Hrel.
  decompose [or] Hrel; subst; try contradiction; now vm_compute.
Qed.

(** X7. The two entry scripts and the output directory lie under one and
    the same directory, the normalised [__dirname]: the paths are that
    directory followed by [/js/index.js], [/js/popup.js] and
    [/build/dist]. *)
Theorem artefacts_share_directory (dirname : string) (env argv : JsValue Number)
    (p p' : Process) (cfg : Configuration) :
  Path.isAbsolute dirname = true ->
  module_exports dirname env argv p = (Normal cfg, p') ->
  entry cfg = [("ruffle", directory_prefix (segments dirname) ++ "/js/index.js");
               ("popup", directory_prefix (segments dirname) ++ "/js/popup.js")] /\
  path (output cfg) = directory_prefix (segments dirname) ++ "/build/dist".
Proof.
  intros Habs Hrun.
  apply module_exports_returned in Hrun as (modeText & _ & -> & _).
  unfold configuration_for. simpl.
  rewrite !NormalForm.resolve_under by (assumption || reflexivity).
  split; reflexivity.
Qed.

(** X8. The crate directory handed to [WasmPackPlugin] is the parent of the
    normalised [__dirname] (the root being its own parent), whatever the
    working directory, and the output name is ["ruffle"]. *)
Theorem crate_directory_is_parent (dirname : string) (env argv : JsValue Number)
    (p p' : Process) (cfg : Configuration) :
  Path.isAbsolute dirname = true ->
  module_exports dirname env argv p = (Normal cfg, p') ->
  exists options,
    plugins cfg = [CleanWebpackPlugin; WasmPackPlugin options] /\
    crateDirectory options = "/" ++ String.concat "/" (removelast (segments dirname)) /\
    outName options = "ruffle".
Proof.
  intros Habs Hrun.
  apply module_exports_returned in Hrun as (modeText & _ & -> & _).
  eexists. split; [reflexivity|]. simpl.
  split; [now apply NormalForm.resolve_parent | reflexivity].
Qed.

(** X9. The entry paths and the output path are in normal form even when
    [__dirname] is not: a leading separator, then no empty segment (no
    doubled or trailing separator), no ["."] and no [".."]. *)
Theorem returned_paths_normalised (dirname : string) (env argv : JsValue Number)
    (p p' : Process) (cfg : Configuration) :
  Path.isAbsolute dirname = true ->
  module_exports dirname env argv p = (Normal cfg, p') ->
  forallb normalised (map snd (entry cfg) ++ [path (output cfg)]) = true.
Proof.
  intros Habs Hrun.
  apply module_exports_returned in Hrun as (modeText & _ & -> & _).
  assert (forall rel, In rel ["js/index.js"; "js/popup.js"; "build/dist"] ->
            normalised (Path.resolve (cwd p) [dirname; rel]) = true) as Hnormal.
  { intros rel Hrel. destruct (relative_targets rel Hrel) as (Hne & Hnot & Hord).
    unfold normalised.
    rewrite NormalForm.split_resolved by assumption.
    simpl. rewrite forallb_app, NormalForm.segments_ordinary. exact Hord. }
  simpl. rewrite !Hnormal by (simpl; tauto). reflexivity.
Qed.

End Further.

(** ** Concrete runs for the further properties *)

(** A directory written with [.], [..] and doubled separators: the paths
    come out clean, under [/home/user/ruffle/web/extension], and the crate
    directory is [/home/user/ruffle/web]. *)
Example dotted_dirname_run :
  module_exports dotted_dir JsUndefined development_argv fresh_process
  = (Normal development_configuration, after_development fresh_process).
Proof. reflexivity. Qed.

Lemma truthy_mode_passes_through_witness :
  exists cfg options,
    module_exports extension_dir JsUndefined numeric_argv busy_process
      = (Normal cfg,
         {| cwd := cwd busy_process;
            stdout := stdout busy_process ++ ["Building " ++ "5" ++ "..."] |}) /\
    mode cfg = JsNumber 5%Z /\
    plugins cfg = [CleanWebpackPlugin; WasmPackPlugin options] /\
    forceMode options = JsNumber 5%Z.
Proof.
  apply (truthy_mode_passes_through extension_dir JsUndefined numeric_argv
           (JsNumber 5%Z) "5" busy_process); reflexivity.
Defined.

Lemma falsy_request_defaults_witness :
  exists cfg,
    module_exports extension_dir JsUndefined (JsObject [("mode", JsNumber 0%Z)]) busy_process
      = (Normal cfg,
         {| cwd := cwd busy_process;
            stdout := stdout busy_process ++ ["Building production..."] |}) /\
    mode cfg = JsString "production".
Proof.
  apply (falsy_request_defaults extension_dir JsUndefined
           (JsObject [("mode", JsNumber 0%Z)]) busy_process).
  right. exists (JsNumber 0%Z). split; reflexivity.
Defined.

Lemma returned_mode_is_truthy_witness :
  ToBoolean (mode development_configuration) = true /\
  (mode development_configuration = JsString "production" \/
   GetV development_argv "mode" = Normal (mode development_configuration)).
Proof.
  apply (returned_mode_is_truthy extension_dir JsUndefined development_argv
           fresh_process (after_development fresh_process)).
  reflexivity.
Defined.

Lemma only_mode_is_read_witness :
  module_exports extension_dir (JsUndefined (Number:=Z))
    (JsObject [("watch", JsBoolean true); ("mode", JsString "development");
               ("devtool", JsString "source-map")]) busy_process
  = module_exports extension_dir (JsObject [("production", JsBoolean true)])
      (JsObject [("mode", JsString "development")]) busy_process.
Proof.
  apply (only_mode_is_read extension_dir). reflexivity.
Defined.



Lemma artefacts_share_directory_witness :
  entry development_configuration
    = [("ruffle", directory_prefix (segments dotted_dir) ++ "/js/index.js");
       ("popup", directory_prefix (segments dotted_dir) ++ "/js/popup.js")] /\
  path (output development_configuration)
    = directory_prefix (segments dotted_dir) ++ "/build/dist".
Proof.
  apply (artefacts_share_directory dotted_dir JsUndefined development_argv
           fresh_process (after_development fresh_process));
    reflexivity.
Defined.

Lemma crate_directory_is_parent_witness :
  exists options,
    plugins development_configuration = [CleanWebpackPlugin; WasmPackPlugin options] /\
    crateDirectory options = "/" ++ String.concat "/" (removelast (segments dotted_dir)) /\
    outName options = "ruffle".
Proof.
  apply (crate_directory_is_parent dotted_dir JsUndefined development_argv
           fresh_process (after_development fresh_process));
    reflexivity.
Defined.

Lemma returned_paths_normalised_witness :
  forallb normalised
    (map snd (entry development_configuration) ++ [path (output development_configuration)])
  = true.
Proof.
  apply (returned_paths_normalised dotted_dir JsUndefined development_argv
           fresh_process (after_development fresh_process));
    reflexivity.
Defined.
